(** * SurfaceMaskFilter_InclusionList: the editor script and its observable contract

    The script [SurfaceMaskFilter_InclusionList.py] drives the editor through
    its scripting API: it creates a level, a vegetation spawner and two surface
    entities, configures a Vegetation Surface Mask Filter, and compares two
    instance counts with expected literals, accumulating the verdict in
    [self.test_success].

    The editor is an external collaborator.  The script is embedded as a
    finite tree of API calls (a free monad over the calls it makes); the
    editor is any state machine that answers those calls, and may answer any
    of them by raising.  Running the script against an editor yields the
    sequence of calls with their replies, interleaved with the assignments to
    [self.test_success]. *)

From Stdlib Require Import ZArith QArith String.
From stdpp Require Import base option list strings gmap pretty.

Close Scope Q_scope.
Open Scope string_scope.
Open Scope Z_scope.
Set Warnings "-register-all".

(** ** Data crossing the scripting API *)

(** [azlmbr.math.Vector3]: three float coordinates, built by the script
    without asking the editor anything.  The script only passes float literals
    through; they are kept as the rationals they denote. *)
Record Vector3 := mkVector3 { v3_x : Q; v3_y : Q; v3_z : Q }.

(** [azlmbr.math.Aabb], as returned by [GetEncompassingAabb]. *)
Record Aabb := mkAabb { aabb_min : Vector3; aabb_max : Vector3 }.

Definition EntityId := Z.

(** The [hydra.Entity] helper object: the script reads its [id], indexes its
    [components] and calls [add_component]; the component list itself lives on
    the editor's side. *)
Record Entity := mkEntity { entity_id : EntityId }.

(** An element of [Entity.components] (an entity/component id pair). *)
Record Component := mkComponent { component_owner : EntityId; component_slot : Z }.

(** Python values passed to, and read back from, component properties. *)
Inductive value :=
| VNone
| VInt (n : Z)
| VFloat (q : Q)
| VStr (s : string)
| VSurfaceTag (crc : Z)
| VList (items : list value).

(** [surface_data.SurfaceTag()]: a default-constructed tag. *)
Definition SurfaceTag : value := VSurfaceTag 0.

(** Python [==] on these values: numbers compare by numeric value, the other
    kinds structurally, and values of unrelated kinds are unequal. *)
Fixpoint py_eq (a b : value) : bool :=
  match a, b with
  | VNone, VNone => true
  | VInt m, VInt n => m =? n
  | VInt m, VFloat q => Qeq_bool (inject_Z m) q
  | VFloat q, VInt n => Qeq_bool q (inject_Z n)
  | VFloat p, VFloat q => Qeq_bool p q
  | VStr s, VStr t => if decide (s = t) then true else false
  | VSurfaceTag c, VSurfaceTag d => c =? d
  | VList xs, VList ys =>
      (fix all2 (xs ys : list value) : bool :=
         match xs, ys with
         | [], [] => true
         | x :: xs', y :: ys' => py_eq x y && all2 xs' ys'
         | _, _ => false
         end) xs ys
  | _, _ => false
  end.

(** Python exceptions that can leave a step of the script. *)
Inductive exn :=
| KeyError (key : string)
| IndexError
| RuntimeError (msg : string).

(** A call either returns or raises. *)
Inductive reply (X : Type) :=
| Returned (x : X)
| Raised (e : exn).
Arguments Returned {X} x.
Arguments Raised {X} e.

(** ** The calls the script makes

    One constructor per call site kind, indexed by the type of what the call
    returns.  [create_level] and [log] are methods of the [EditorTestHelper]
    base class, [create_vegetation_area] and [create_surface_entity] belong to
    [dynveg], [get_set_test] and [get_component_property_value] to [hydra],
    [add_component] and [components_getitem] ([Entity.components[i]]) to the
    [hydra.Entity] object; the remaining ones are bus requests and
    [azlmbr.legacy.general] functions.  Replies the script throws away are
    typed [unit]. *)
Inductive call : Type -> Type :=
| create_level (level_name : string)
    (heightmap_resolution heightmap_meters_per_pixel terrain_texture_resolution : Z)
    (use_terrain : bool) : call bool
| set_current_view_position (x y z : Q) : call unit
| create_vegetation_area (name : string) (center : Vector3)
    (box_x box_y box_z : Q) (asset_path : string) : call Entity
| add_component (e : Entity) (component_name : string) : call unit
| create_surface_entity (name : string) (center : Vector3)
    (box_x box_y box_z : Q) : call Entity
| get_set_test (e : Entity) (component_index : Z) (path : string) (v : value) : call unit
| components_getitem (e : Entity) (component_index : Z) : call Component
| SetComponentProperty (c : Component) (path : string) (v : value) : call unit
| get_component_property_value (c : Component) (path : string) : call value
| idle_wait (seconds : Q) : call unit
| GetEncompassingAabb (id : EntityId) : call Aabb
| GetInstanceCountInAabb (box : Aabb) : call Z
| print (msg : string) : call unit
| log (msg : string) : call unit.

(** ** The test object *)

(** The attributes of [self] the script touches. *)
Record EditorTestHelper := mkSelf {
  log_prefix : string;
  args : gmap string string;
  test_success : bool
}.

Definition set_test_success (b : bool) (self : EditorTestHelper) : EditorTestHelper :=
  {| log_prefix := log_prefix self; args := args self; test_success := b |}.

(** ** Scripts *)

(** A script is a tree: return, raise, call the editor and continue with its
    reply, read [self], assign [self.test_success], or run a block under
    [try]/[except]. *)
Inductive script (R : Type) : Type :=
| Ret (r : R)
| Raise (e : exn)
| Call {X : Type} (c : call X) (k : X -> script R)
| ReadSelf (k : EditorTestHelper -> script R)
| WriteTestSuccess (b : bool) (k : script R)
| TryExcept {A : Type} (body : script A) (handler : exn -> script A) (k : A -> script R).
Arguments Ret {R} r.
Arguments Raise {R} e.
Arguments Call {R X} c k.
Arguments ReadSelf {R} k.
Arguments WriteTestSuccess {R} b k.
Arguments TryExcept {R A} body handler k.

Fixpoint bind {A B : Type} (m : script A) (f : A -> script B) : script B :=
  match m with
  | Ret r => f r
  | Raise e => Raise e
  | Call c k => Call c (fun x => bind (k x) f)
  | ReadSelf k => ReadSelf (fun s => bind (k s) f)
  | WriteTestSuccess b k => WriteTestSuccess b (bind k f)
  | TryExcept body handler k => TryExcept body handler (fun a => bind (k a) f)
  end.

Declare Scope script_scope.
Delimit Scope script_scope with script.
Notation "x <- m ;; k" := (bind m (fun x => k))
  (at level 100, m at next level, right associativity) : script_scope.
Notation "m ;; k" := (bind m (fun _ => k))
  (at level 100, right associativity) : script_scope.
Open Scope script_scope.

Definition do {X : Type} (c : call X) : script X := Call c Ret.
Definition read_self : script EditorTestHelper := ReadSelf Ret.
Definition assign_test_success (b : bool) : script unit := WriteTestSuccess b (Ret tt).

(** [d[key]] on a dict: [KeyError] when the key is absent. *)
Definition getitem {V : Type} (d : gmap string V) (key : string) : script V :=
  match d !! key with
  | Some v => Ret v
  | None => Raise (KeyError key)
  end.

(** [os.path.join(a, b)] for relative, non-empty parts. *)
Definition os_path_join (sep a b : string) : string := a +:+ sep +:+ b.

(** ** The script *)

(** The dict literal [surface_tags] of step 4. *)
Definition surface_tags : gmap string Z :=
  list_to_map [("terrainHole", 1327698037); ("terrain", 3363197873)].

(** The inner function [update_surface_tag_inclusion_list]; like its sibling
    below it is only ever handed an integer tag taken from [surface_tags]. *)
Definition update_surface_tag_inclusion_list
    (Entity : Entity) (component_index : Z) (surface_tag : Z) : script unit :=
  let tag_list := VList [SurfaceTag] in
  do (get_set_test Entity component_index "Configuration|Inclusion|Surface Tags" tag_list) ;;
  component <- do (components_getitem Entity component_index) ;;
  let path := "Configuration|Inclusion|Surface Tags|[0]|Surface Tag" in
  do (SetComponentProperty component path (VInt surface_tag)) ;;
  new_value <- do (get_component_property_value component path) ;;
  (if py_eq new_value (VInt surface_tag)
   then do (print "Inclusive surface mask filter of terrainHole is added successfully")
   else do (print "Failed to add an Inclusive surface mask filter of terrainHole")) ;;
  do (idle_wait 2.0).

(** Python's [str] of the values the script formats into messages. *)
Definition str_int (n : Z) : string := pretty n.

(** The inner function [update_generated_surface_tag]; the tag it formats into
    the log line is the integer it was given. *)
Definition update_generated_surface_tag
    (Entity : Entity) (component_index : Z) (surface_tag : Z) : script unit :=
  let tag_list := VList [SurfaceTag] in
  do (get_set_test Entity component_index "Configuration|Generated Tags" tag_list) ;;
  component <- do (components_getitem Entity component_index) ;;
  let path := "Configuration|Generated Tags|[0]|Surface Tag" in
  do (SetComponentProperty component path (VInt surface_tag)) ;;
  new_value <- do (get_component_property_value component path) ;;
  if py_eq new_value (VInt surface_tag)
  then do (log ("Generated surface tag of " +:+ str_int surface_tag +:+ " is added successfully"))
  else do (log ("Failed to add Generated surface tag of " +:+ str_int surface_tag)).

Definition count_message (num_expected_instances num_found : Z) : string :=
  "Expected " +:+ str_int num_expected_instances +:+ " instances - Found "
  +:+ str_int num_found +:+ " instances".

(** [TestInclusiveSurfaceMasksTag.run_test], statement by statement.  [sep]
    is the path separator of the platform the editor runs on. *)
Definition run_test (sep : string) : script unit :=
  (* 1) Create a new level *)
  self <- read_self ;;
  level <- getitem (args self) "level" ;;
  created <- do (create_level level 1024 1 4096 false) ;;
  assign_test_success created ;;
  do (set_current_view_position 512.0 480.0 38.0) ;;
  (* 2) Create the spawner entity *)
  let entity_position := mkVector3 512.0 512.0 32.0 in
  let asset_path := os_path_join sep "Slices" "PurpleFlower.dynamicslice" in
  spawner_entity <- do (create_vegetation_area "Instance Spawner" entity_position
                          10.0 10.0 10.0 asset_path) ;;
  (* 3) Add a Vegetation Surface Mask Filter component to the entity *)
  do (add_component spawner_entity "Vegetation Surface Mask Filter") ;;
  (* 4) Create 2 surface entities *)
  let entity_position := mkVector3 510.0 512.0 32.0 in
  surface_entity_1 <- do (create_surface_entity "Surface Entity 1" entity_position
                            10.0 10.0 1.0) ;;
  tag <- getitem surface_tags "terrainHole" ;;
  update_generated_surface_tag surface_entity_1 1 tag ;;
  let entity_position := mkVector3 520.0 512.0 32.0 in
  surface_entity_2 <- do (create_surface_entity "Surface Entity 2" entity_position
                            10.0 10.0 1.0) ;;
  tag <- getitem surface_tags "terrain" ;;
  update_generated_surface_tag surface_entity_2 1 tag ;;
  (* 5) Add an Inclusion List tag to the component *)
  tag <- getitem surface_tags "terrainHole" ;;
  update_surface_tag_inclusion_list spawner_entity 3 tag ;;
  (* 6) Check spawn count with default Inclusion Weights *)
  do (idle_wait 2.0) ;;
  let num_expected_instances := 130 in
  box <- do (GetEncompassingAabb (entity_id spawner_entity)) ;;
  num_found <- do (GetInstanceCountInAabb box) ;;
  do (log (count_message num_expected_instances num_found)) ;;
  self <- read_self ;;
  assign_test_success (test_success self && (num_found =? num_expected_instances)) ;;
  (* 7) Check spawn count with Inclusion Weight Max set below 1.0 *)
  do (get_set_test spawner_entity 3 "Configuration|Inclusion|Weight Max" (VFloat 0.9)) ;;
  do (idle_wait 2.0) ;;
  let num_expected_instances := 0 in
  num_found <- do (GetInstanceCountInAabb box) ;;
  do (log (count_message num_expected_instances num_found)) ;;
  self <- read_self ;;
  assign_test_success (test_success self && (num_found =? num_expected_instances)).

(** ** Running a script against an editor *)

(** What a run leaves behind, in order: each call with its reply, and each
    assignment to [self.test_success]. *)
Inductive event :=
| ECall {X : Type} (c : call X) (r : reply X)
| EWrite (b : bool).

Record execution (world R : Type) := mkRun {
  trace : list event;
  self_end : EditorTestHelper;
  world_end : world;
  outcome : reply R
}.
Arguments mkRun {world R}.
Arguments trace {world R}.
Arguments self_end {world R}.
Arguments world_end {world R}.
Arguments outcome {world R}.

Definition after {world R : Type} (evs : list event) (r : execution world R)
    : execution world R :=
  mkRun (evs ++ trace r) (self_end r) (world_end r) (outcome r).

Section Editor.

(** The editor: a state and the way it answers each call. *)
Variable world : Type.
Variable respond : forall X : Type, call X -> world -> reply X * world.

(** A raise ends the run at once unless a [try] block encloses it. *)
Fixpoint exec {R : Type} (s : script R) (self : EditorTestHelper) (w : world)
    : execution world R :=
  match s with
  | Ret r => mkRun [] self w (Returned r)
  | Raise e => mkRun [] self w (Raised e)
  | Call c k =>
      match respond _ c w with
      | (Returned x, w') => after [ECall c (Returned x)] (exec (k x) self w')
      | (Raised e, w') => mkRun [ECall c (Raised e)] self w' (Raised e)
      end
  | ReadSelf k => exec (k self) self w
  | WriteTestSuccess b k =>
      after [EWrite b] (exec k (set_test_success b self) w)
  | TryExcept body handler k =>
      let r := exec body self w in
      match outcome r with
      | Returned a => after (trace r) (exec (k a) (self_end r) (world_end r))
      | Raised e =>
          let h := exec (handler e) (self_end r) (world_end r) in
          match outcome h with
          | Returned a =>
              after (trace r ++ trace h) (exec (k a) (self_end h) (world_end h))
          | Raised e' =>
              mkRun (trace r ++ trace h) (self_end h) (world_end h) (Raised e')
          end
      end
  end.

End Editor.

Arguments exec {world} respond {R} s self w.

(** ** Observing a trace *)

(** The exception a call ended with, if it raised. *)
Definition event_exn (ev : event) : option exn :=
  match ev with
  | ECall _ (Raised e) => Some e
  | _ => None
  end.

Definition as_write (ev : event) : option bool :=
  match ev with
  | EWrite b => Some b
  | _ => None
  end.

(** The values assigned to [self.test_success], in order. *)
Definition writes (tr : list event) : list bool := omap as_write tr.

Definition as_count_query (ev : event) : option (Aabb * reply Z) :=
  match ev with
  | ECall c r =>
      match c in call X return reply X -> option (Aabb * reply Z) with
      | GetInstanceCountInAabb box => fun r => Some (box, r)
      | _ => fun _ => None
      end r
  | EWrite _ => None
  end.

(** The [GetInstanceCountInAabb] requests of a trace: box asked about, reply. *)
Definition count_queries (tr : list event) : list (Aabb * reply Z) :=
  omap as_count_query tr.

Definition as_aabb_query (ev : event) : option (EntityId * reply Aabb) :=
  match ev with
  | ECall c r =>
      match c in call X return reply X -> option (EntityId * reply Aabb) with
      | GetEncompassingAabb id => fun r => Some (id, r)
      | _ => fun _ => None
      end r
  | EWrite _ => None
  end.

Definition aabb_queries (tr : list event) : list (EntityId * reply Aabb) :=
  omap as_aabb_query tr.

Definition as_create_level (ev : event) : option (reply bool) :=
  match ev with
  | ECall c r =>
      match c in call X return reply X -> option (reply bool) with
      | create_level _ _ _ _ _ => fun r => Some r
      | _ => fun _ => None
      end r
  | EWrite _ => None
  end.

Definition create_level_replies (tr : list event) : list (reply bool) :=
  omap as_create_level tr.

(** The property path a call writes to, for the two calls that set component
    properties. *)
Definition property_written (ev : event) : option string :=
  match ev with
  | ECall (get_set_test _ _ path _) _ => Some path
  | ECall (SetComponentProperty _ path _) _ => Some path
  | _ => None
  end.

(** The value a read-back returned, with the component and path read. *)
Definition as_readback (ev : event) : option (Component * string * value) :=
  match ev with
  | ECall c r =>
      match c in call X return reply X -> option (Component * string * value) with
      | get_component_property_value comp path => fun r =>
          match r with
          | Returned v => Some (comp, path, v)
          | Raised _ => None
          end
      | _ => fun _ => None
      end r
  | EWrite _ => None
  end.

Definition readbacks (tr : list event) : list (Component * string * value) :=
  omap as_readback tr.

(** The component, path and value of a [SetComponentProperty] request. *)
Definition as_set_property (ev : event) : option (Component * string * value) :=
  match ev with
  | ECall (SetComponentProperty comp path v) _ => Some (comp, path, v)
  | _ => None
  end.

Definition property_sets (tr : list event) : list (Component * string * value) :=
  omap as_set_property tr.

Definition as_vegetation_area (ev : event) : option (string * reply Entity) :=
  match ev with
  | ECall c r =>
      match c in call X return reply X -> option (string * reply Entity) with
      | create_vegetation_area name _ _ _ _ _ => fun r => Some (name, r)
      | _ => fun _ => None
      end r
  | EWrite _ => None
  end.

Definition vegetation_areas (tr : list event) : list (string * reply Entity) :=
  omap as_vegetation_area tr.

Definition as_surface_entity (ev : event) : option (string * reply Entity) :=
  match ev with
  | ECall c r =>
      match c in call X return reply X -> option (string * reply Entity) with
      | create_surface_entity name _ _ _ _ => fun r => Some (name, r)
      | _ => fun _ => None
      end r
  | EWrite _ => None
  end.

Definition surface_entities (tr : list event) : list (string * reply Entity) :=
  omap as_surface_entity tr.

(** ** Editors to run the script against *)

(** A small editor.  It hands out entity ids in sequence, keeps the component
    properties it is given, and counts 130 instances in any box as long as the
    inclusion weight maximum is at least 1.0, none below.  [quirk] selects a
    deviation: an editor that drops the tag written by [SetComponentProperty],
    or one whose area system raises on the instance-count request. *)
Inductive quirk := Sound | ForgetsTags | CountRaises.

Record toy_world := mkToy {
  next_id : Z;
  stored : list (Component * string * value);
  weight_max : Q
}.

Definition toy_start : toy_world := mkToy 1 [] 1.0.

Definition same_slot (c d : Component) (p q : string) : bool :=
  (component_owner c =? component_owner d) && (component_slot c =? component_slot d)
  && String.eqb p q.

Fixpoint stored_value (c : Component) (path : string)
    (props : list (Component * string * value)) : value :=
  match props with
  | [] => VNone
  | (d, q, v) :: rest => if same_slot c d path q then v else stored_value c path rest
  end.

Definition toy_box : Aabb := mkAabb (mkVector3 507.0 507.0 27.0) (mkVector3 517.0 517.0 37.0).

Definition toy_respond (q : quirk) (X : Type) (c : call X) (w : toy_world)
    : reply X * toy_world :=
  match c in call X return reply X * toy_world with
  | create_level _ _ _ _ _ => (Returned true, w)
  | set_current_view_position _ _ _ => (Returned tt, w)
  | create_vegetation_area _ _ _ _ _ _ =>
      (Returned (mkEntity (next_id w)), mkToy (next_id w + 1) (stored w) (weight_max w))
  | add_component _ _ => (Returned tt, w)
  | create_surface_entity _ _ _ _ _ =>
      (Returned (mkEntity (next_id w)), mkToy (next_id w + 1) (stored w) (weight_max w))
  | get_set_test e i path v =>
      let props := (mkComponent (entity_id e) i, path, v) :: stored w in
      let wmax :=
        match v with
        | VFloat m =>
            if String.eqb path "Configuration|Inclusion|Weight Max" then m else weight_max w
        | _ => weight_max w
        end in
      (Returned tt, mkToy (next_id w) props wmax)
  | components_getitem e i => (Returned (mkComponent (entity_id e) i), w)
  | SetComponentProperty comp path v =>
      match q with
      | ForgetsTags => (Returned tt, w)
      | _ => (Returned tt, mkToy (next_id w) ((comp, path, v) :: stored w) (weight_max w))
      end
  | get_component_property_value comp path =>
      (Returned (stored_value comp path (stored w)), w)
  | idle_wait _ => (Returned tt, w)
  | GetEncompassingAabb _ => (Returned toy_box, w)
  | GetInstanceCountInAabb _ =>
      match q with
      | CountRaises => (Raised (RuntimeError "area system unavailable"), w)
      | _ => (Returned (if Qle_bool 1.0 (weight_max w) then 130 else 0), w)
      end
  | print _ => (Returned tt, w)
  | log _ => (Returned tt, w)
  end.

Definition toy_self : EditorTestHelper :=
  mkSelf "SurfaceMaskFilter_InclusionList" (<["level" := "tmp_level"]> ∅) true.

Definition toy_run (q : quirk) : execution toy_world unit :=
  exec (toy_respond q) (run_test "/") toy_self toy_start.

(** An editor that answers as [respond] does, except that the value of every
    read-back that returns is replaced by [rb]. *)
Definition with_readback {world : Type} (rb : Component -> string -> value -> value)
    (respond : forall X : Type, call X -> world -> reply X * world)
    (X : Type) (c : call X) (w : world) : reply X * world :=
  match c in call X return reply X * world -> reply X * world with
  | get_component_property_value comp path => fun a =>
      match a with
      | (Returned v, w') => (Returned (rb comp path v), w')
      | (Raised e, w') => (Raised e, w')
      end
  | _ => fun a => a
  end (respond X c w).

(** [print] and [self.log] are output only: how the editor answers them, and
    the state it is left in, do not depend on the text. *)
Definition output_inert {world : Type}
    (respond : forall X : Type, call X -> world -> reply X * world) : Prop :=
  forall (m m' : string) (w : world),
    respond unit (print m) w = respond unit (print m') w /\
    respond unit (log m) w = respond unit (log m') w.

(** A script without [try]/[except] anywhere in it. *)
Fixpoint try_free {R : Type} (s : script R) : Prop :=
  match s with
  | Ret _ => True
  | Raise _ => True
  | Call c k => forall x, try_free (k x)
  | ReadSelf k => forall self, try_free (k self)
  | WriteTestSuccess _ k => try_free k
  | TryExcept _ _ _ => False
  end.

(** ** What the claims say about a trace *)

Definition is_count_query (ev : event) : bool :=
  match ev with
  | ECall (GetInstanceCountInAabb _) _ => true
  | _ => false
  end.

Definition is_aabb_query (ev : event) : bool :=
  match ev with
  | ECall (GetEncompassingAabb _) _ => true
  | _ => false
  end.

(** [general.idle_wait(2.0)], returned. *)
Definition is_settle_wait (ev : event) : bool :=
  match ev with
  | ECall (idle_wait seconds) (Returned _) => Qeq_bool seconds 2.0
  | _ => false
  end.

(** The event just before the point reached is the two-second wait. *)
Definition wait_is_last (pre : list event) : bool :=
  match reverse pre with
  | a :: _ => is_settle_wait a
  | [] => false
  end.

(** The two-second wait comes last, or last but for the request for the
    encompassing box when no count has been asked for yet. *)
Definition settled (pre : list event) : bool :=
  wait_is_last pre
  || match reverse pre, count_queries pre with
     | a :: b :: _, [] => is_aabb_query a && is_settle_wait b
     | _, _ => false
     end.

(** [P] holds of every event of [tr], given the events before it ([hist]
    being those before [tr] itself). *)
Fixpoint holds_throughout (P : list event -> event -> bool)
    (hist tr : list event) : bool :=
  match tr with
  | [] => true
  | ev :: rest => P hist ev && holds_throughout P (hist ++ [ev]) rest
  end.

Definition query_is_settled (pre : list event) (ev : event) : bool :=
  if is_count_query ev then settled pre else true.

(** The reading of C5 as written: each count query has the wait as its
    immediate predecessor. *)
Definition waits_right_before_queries (tr : list event) : Prop :=
  forall (pre post : list event) (ev : event),
    tr = (pre ++ ev :: post)%list -> is_count_query ev = true -> wait_is_last pre = true.

(** The property paths the script writes while it builds the scene, in
    order: the generated tags of the two surface entities and the inclusion
    tags of the filter.  No weight of the filter is among them. *)
Definition tag_paths : list string :=
  ["Configuration|Generated Tags";
   "Configuration|Generated Tags|[0]|Surface Tag";
   "Configuration|Generated Tags";
   "Configuration|Generated Tags|[0]|Surface Tag";
   "Configuration|Inclusion|Surface Tags";
   "Configuration|Inclusion|Surface Tags|[0]|Surface Tag"].

(** What step 6 leaves in the trace, [b1] being the value it assigns: up to
    the check the script has written the paths of [tag_paths] and nothing
    else, so the weights of the filter are the ones it was created with. *)
Definition first_check (tr : list event) (b1 : bool) : Prop :=
  exists (pre post : list event) (b0 : bool) (spawner : Entity) (filter : Component)
         (box : Aabb) (num_found : Z),
    tr = (pre ++ [ECall (GetEncompassingAabb (entity_id spawner)) (Returned box);
                  ECall (GetInstanceCountInAabb box) (Returned num_found);
                  ECall (log (count_message 130 num_found)) (Returned tt);
                  EWrite b1] ++ post)%list /\
    writes pre = [b0] /\
    count_queries pre = [] /\
    vegetation_areas pre = [("Instance Spawner", Returned spawner)] /\
    last (property_sets pre)
      = Some (filter, "Configuration|Inclusion|Surface Tags|[0]|Surface Tag",
              VInt 1327698037) /\
    omap property_written pre = tag_paths /\
    b1 = b0 && (num_found =? 130) /\
    (b0 = true -> (b1 = true <-> num_found = 130)).

(** What step 7 leaves in the trace, [b2] being the value it assigns. *)
Definition second_check (tr : list event) (b2 : bool) : Prop :=
  exists (pre : list event) (b0 b1 : bool) (spawner : Entity) (box : Aabb)
         (n1 num_found : Z),
    tr = (pre ++ [ECall (get_set_test spawner 3
                           "Configuration|Inclusion|Weight Max" (VFloat 0.9))
                        (Returned tt);
                  ECall (idle_wait 2.0) (Returned tt);
                  ECall (GetInstanceCountInAabb box) (Returned num_found);
                  ECall (log (count_message 0 num_found)) (Returned tt);
                  EWrite b2])%list /\
    (0.9 < 1.0)%Q /\
    vegetation_areas pre = [("Instance Spawner", Returned spawner)] /\
    writes pre = [b0; b1] /\
    count_queries pre = [(box, Returned n1)] /\
    omap property_written pre = tag_paths /\
    b2 = b1 && (num_found =? 0) /\
    (b1 = true -> (b2 = true <-> num_found = 0)).

(** The two count checks of a run that returns: the only count queries of the
    trace, the first before and the second after the one write to the weight
    maximum, each followed by its log line and its assignment. *)
Definition two_count_checks (tr : list event) : Prop :=
  exists (pre mid : list event) (b0 : bool) (box1 box2 : Aabb) (n1 n2 : Z),
    tr = (pre ++ [ECall (GetInstanceCountInAabb box1) (Returned n1);
                  ECall (log (count_message 130 n1)) (Returned tt);
                  EWrite (b0 && (n1 =? 130))]
              ++ mid
              ++ [ECall (GetInstanceCountInAabb box2) (Returned n2);
                  ECall (log (count_message 0 n2)) (Returned tt);
                  EWrite (b0 && (n1 =? 130) && (n2 =? 0))])%list /\
    count_queries pre = [] /\
    count_queries mid = [] /\
    count_queries tr = [(box1, Returned n1); (box2, Returned n2)] /\
    Forall (fun ev => property_written ev <> Some "Configuration|Inclusion|Weight Max") pre /\
    omap property_written mid = ["Configuration|Inclusion|Weight Max"].

Definition as_component_lookup (ev : event) : option (Entity * Z * Component) :=
  match ev with
  | ECall c r =>
      match c in call X return reply X -> option (Entity * Z * Component) with
      | components_getitem e i => fun r =>
          match r with
          | Returned comp => Some (e, i, comp)
          | Raised _ => None
          end
      | _ => fun _ => None
      end r
  | EWrite _ => None
  end.

(** The [Entity.components[i]] lookups that returned. *)
Definition component_lookups (tr : list event) : list (Entity * Z * Component) :=
  omap as_component_lookup tr.

(** The scene of a run that returns: one spawner and two surface entities, the
    first tagged terrainHole and the second terrain, all before the inclusion
    list of the spawner's filter is given the terrainHole tag. *)
Definition scene_built (tr : list event) : Prop :=
  exists (pre post : list event) (spawner s1 s2 : Entity) (c1 c2 filter : Component),
    tr = (pre ++ ECall (SetComponentProperty filter
                          "Configuration|Inclusion|Surface Tags|[0]|Surface Tag"
                          (VInt 1327698037)) (Returned tt) :: post)%list /\
    vegetation_areas pre = [("Instance Spawner", Returned spawner)] /\
    vegetation_areas post = [] /\
    surface_entities pre
      = [("Surface Entity 1", Returned s1); ("Surface Entity 2", Returned s2)] /\
    surface_entities post = [] /\
    component_lookups pre = [(s1, 1, c1); (s2, 1, c2); (spawner, 3, filter)] /\
    property_sets pre
      = [(c1, "Configuration|Generated Tags|[0]|Surface Tag", VInt 1327698037);
         (c2, "Configuration|Generated Tags|[0]|Surface Tag", VInt 3363197873)] /\
    surface_tags !! "terrainHole" = Some 1327698037 /\
    surface_tags !! "terrain" = Some 3363197873.

(** One box for both counts: the single [GetEncompassingAabb] request comes
    before the write to the weight maximum, and the box it returned is the one
    asked about on either side of that write. *)
Definition one_box (tr : list event) : Prop :=
  exists (pre mid post : list event) (spawner : Entity) (box : Aabb) (n1 n2 : Z),
    tr = (pre ++ ECall (GetEncompassingAabb (entity_id spawner)) (Returned box)
              :: mid
              ++ ECall (get_set_test spawner 3
                          "Configuration|Inclusion|Weight Max" (VFloat 0.9))
                       (Returned tt)
              :: post)%list /\
    aabb_queries tr = [(entity_id spawner, Returned box)] /\
    count_queries pre = [] /\
    count_queries mid = [(box, Returned n1)] /\
    count_queries post = [(box, Returned n2)] /\
    Forall (fun ev => property_written ev <> Some "Configuration|Inclusion|Weight Max")
           (pre ++ mid).

(** The verdict of a run that returns: [test_success] has been assigned three
    times, the reply of [create_level] first and then its conjunction with each
    count comparison, and it ends true exactly when the level was created and
    the two counts were 130 and 0. *)
Definition verdict {world : Type} (r : execution world unit) : Prop :=
  exists (created : bool) (box1 box2 : Aabb) (n1 n2 : Z),
    create_level_replies (trace r) = [Returned created] /\
    count_queries (trace r) = [(box1, Returned n1); (box2, Returned n2)] /\
    writes (trace r)
      = [created; created && (n1 =? 130); created && (n1 =? 130) && (n2 =? 0)] /\
    test_success (self_end r) = created && (n1 =? 130) && (n2 =? 0) /\
    (test_success (self_end r) = true <-> created = true /\ n1 = 130 /\ n2 = 0).

(** Two runs that agree on everything that bears on [test_success]. *)
Definition same_verdict {world : Type} (r r' : execution world unit) : Prop :=
  writes (trace r') = writes (trace r) /\
  test_success (self_end r') = test_success (self_end r) /\
  outcome r' = outcome r.

(** The reading of C4 as written, on one run: every tag read back equals the
    tag set at that component and path, and a mismatch leaves [test_success]
    false. *)
Definition readbacks_match {world : Type} (r : execution world unit) : Prop :=
  forall (comp : Component) (path : string) (set_to got : value),
    (comp, path, set_to) ∈ property_sets (trace r) ->
    (comp, path, got) ∈ readbacks (trace r) ->
    py_eq got set_to = true.

Definition mismatch_fails_test {world : Type} (r : execution world unit) : Prop :=
  forall (comp : Component) (path : string) (set_to got : value),
    (comp, path, set_to) ∈ property_sets (trace r) ->
    (comp, path, got) ∈ readbacks (trace r) ->
    py_eq got set_to = false ->
    test_success (self_end r) = false.

(** The trace of [update_generated_surface_tag] when it returns. *)
Definition generated_tag_trace (Entity : Entity) (component_index surface_tag : Z)
    (component : Component) (new_value : value) : list event :=
  [ECall (get_set_test Entity component_index "Configuration|Generated Tags"
            (VList [SurfaceTag])) (Returned tt);
   ECall (components_getitem Entity component_index) (Returned component);
   ECall (SetComponentProperty component "Configuration|Generated Tags|[0]|Surface Tag"
            (VInt surface_tag)) (Returned tt);
   ECall (get_component_property_value component
            "Configuration|Generated Tags|[0]|Surface Tag") (Returned new_value);
   ECall (log (if py_eq new_value (VInt surface_tag)
               then "Generated surface tag of " +:+ str_int surface_tag
                    +:+ " is added successfully"
               else "Failed to add Generated surface tag of " +:+ str_int surface_tag))
         (Returned tt)].

(** The trace of [update_surface_tag_inclusion_list] when it returns. *)
Definition inclusion_list_trace (Entity : Entity) (component_index surface_tag : Z)
    (component : Component) (new_value : value) : list event :=
  [ECall (get_set_test Entity component_index "Configuration|Inclusion|Surface Tags"
            (VList [SurfaceTag])) (Returned tt);
   ECall (components_getitem Entity component_index) (Returned component);
   ECall (SetComponentProperty component
            "Configuration|Inclusion|Surface Tags|[0]|Surface Tag"
            (VInt surface_tag)) (Returned tt);
   ECall (get_component_property_value component
            "Configuration|Inclusion|Surface Tags|[0]|Surface Tag") (Returned new_value);
   ECall (print (if py_eq new_value (VInt surface_tag)
                 then "Inclusive surface mask filter of terrainHole is added successfully"
                 else "Failed to add an Inclusive surface mask filter of terrainHole"))
         (Returned tt);
   ECall (idle_wait 2.0) (Returned tt)].

(** What either helper leaves behind: no assignment to [test_success], [self]
    as it was, and on return the trace [expected] for some component and some
    value read back. *)
Definition helper_run {world : Type} (self : EditorTestHelper)
    (expected : Component -> value -> list event) (r : execution world unit) : Prop :=
  writes (trace r) = [] /\
  self_end r = self /\
  (outcome r = Returned tt ->
   exists (component : Component) (new_value : value),
     trace r = expected component new_value).

(** ** Further observations and editors *)

(** The seconds of each [idle_wait] that returned. *)
Definition as_wait (ev : event) : option Q :=
  match ev with
  | ECall (idle_wait seconds) (Returned _) => Some seconds
  | _ => None
  end.

Definition waits (tr : list event) : list Q := omap as_wait tr.

(** An editor that answers as [respond] does, except that [create_level],
    when it returns, returns [created]. *)
Definition with_level_reply {world : Type} (created : bool)
    (respond : forall X : Type, call X -> world -> reply X * world)
    (X : Type) (c : call X) (w : world) : reply X * world :=
  match c in call X return reply X * world -> reply X * world with
  | create_level _ _ _ _ _ => fun a =>
      match a with
      | (Returned _, w') => (Returned created, w')
      | (Raised e, w') => (Raised e, w')
      end
  | _ => fun a => a
  end (respond X c w).

(** A test object that was given no "level" argument. *)
Definition toy_self_without_level : EditorTestHelper :=
  mkSelf "SurfaceMaskFilter_InclusionList" ∅ true.

(** ** How a run ends *)

(** Every call of the trace was answered: none raised. *)
Definition answered (tr : list event) : Prop :=
  forall ev : event, ev ∈ tr -> event_exn ev = None.

Fixpoint no_raise (tr : list event) : bool :=
  match tr with
  | [] => true
  | ev :: rest =>
      match event_exn ev with
      | None => no_raise rest
      | Some _ => false
      end
  end.

(** The run was ended by a call that raised: that call is its last event and
    the exception is its outcome. *)
Definition cut_short {world : Type} (r : execution world unit) : Prop :=
  exists (ev : event) (e : exn),
    last (trace r) = Some ev /\ event_exn ev = Some e /\ outcome r = Raised e.

(** The values the replies of a trace call for, in order: the reply of
    [create_level], its conjunction with the first count compared with 130,
    and that conjoined with the second count compared with 0. *)
Definition assigned (tr : list event) : list bool :=
  match create_level_replies tr with
  | Returned created :: _ =>
      created ::
      match count_queries tr with
      | (_, Returned n1) :: rest =>
          (created && (n1 =? 130)) ::
          match rest with
          | (_, Returned n2) :: _ => [created && (n1 =? 130) && (n2 =? 0)]
          | _ => []
          end
      | _ => []
      end
  | _ => []
  end.

(** The reading of C3 as written, on one run: [test_success] ends true
    exactly when the level was created and the two counts observed were 130
    and 0. *)
Definition final_value_iff {world : Type} (r : execution world unit) : Prop :=
  test_success (self_end r) = true <->
  exists (box1 box2 : Aabb),
    create_level_replies (trace r) = [Returned true] /\
    count_queries (trace r) = [(box1, Returned 130); (box2, Returned 0)].

(** * Properties *)

Arguments getitem : simpl never.
Arguments count_message : simpl never.
Arguments str_int : simpl never.
Arguments os_path_join : simpl never.
Arguments py_eq : simpl never.
Arguments Z.eqb : simpl never.
Arguments String.append : simpl never.

(** ** Stepping through a run *)

Lemma getitem_terrainHole : getitem surface_tags "terrainHole" = Ret 1327698037.
Proof. reflexivity. Qed.

Lemma getitem_terrain : getitem surface_tags "terrain" = Ret 3363197873.
Proof. reflexivity. Qed.

(** Both branches of the read-back test make the same call with a different
    line of text. *)
Lemma bind_if_log {R : Type} (b : bool) (m1 m2 : string) (f : unit -> script R) :
  bind (if b then do (log m1) else do (log m2)) f = Call (log (if b then m1 else m2)) f.
Proof. by destruct b. Qed.

Lemma bind_if_print {R : Type} (b : bool) (m1 m2 : string) (f : unit -> script R) :
  bind (if b then do (print m1) else do (print m2)) f
  = Call (print (if b then m1 else m2)) f.
Proof. by destruct b. Qed.

Lemma if_log (b : bool) (m1 m2 : string) :
  (if b then do (log m1) else do (log m2)) = do (log (if b then m1 else m2)).
Proof. by destruct b. Qed.

(** One step of a run: case on the editor's reply to the call at the head. *)
Ltac step respond :=
  match goal with
  | |- context [bind (if ?b then do (log ?m1) else do (log ?m2)) ?f] =>
      rewrite (bind_if_log b m1 m2 f); cbn
  | |- context [bind (if ?b then do (print ?m1) else do (print ?m2)) ?f] =>
      rewrite (bind_if_print b m1 m2 f); cbn
  | |- context [if ?b then do (log ?m1) else do (log ?m2)] =>
      rewrite (if_log b m1 m2); cbn
  | |- context [respond ?X ?c ?w] =>
      let E := fresh "E" in
      lazymatch X with
      | unit => destruct (respond X c w) as [[[]|?e] ?w'] eqn:E
      | _ => destruct (respond X c w) as [[?x|?e] ?w'] eqn:E
      end; cbn
  end.

(** All the ways [run_test] can go against [respond]: from a goal
    [let r := exec respond (run_test sep) self w in G], one goal per point
    where the run can stop, with [r] replaced by what the run left there. *)
Ltac run_cases respond :=
  let r := fresh "r" in
  let Hr := fresh "Hr" in
  intros r;
  match goal with
  | r0 := exec respond (run_test ?sep) ?self ?w |- _ =>
      assert (Hr : exec respond (run_test sep) self w = r0) by reflexivity;
      clearbody r0; revert Hr;
      unfold run_test, update_generated_surface_tag, update_surface_tag_inclusion_list;
      unfold getitem at 1;
      rewrite !getitem_terrainHole, getitem_terrain; cbn;
      destruct (args self !! "level") as [?level|]; cbn;
      repeat step respond;
      intros <-; cbn
  end.

(** ** General facts about runs *)

Lemma holds_throughout_spec (P : list event -> event -> bool) (tr hist : list event) :
  holds_throughout P hist tr = true ->
  forall (pre post : list event) (ev : event),
    tr = (pre ++ ev :: post)%list -> P (hist ++ pre)%list ev = true.
Proof.
  revert hist. induction tr as [|a tr IH]; intros hist H pre post ev Heq.
  - destruct pre; discriminate Heq.
  - cbn in H. apply andb_true_iff in H as [Ha Hrest].
    destruct pre as [|p pre]; cbn in Heq; injection Heq as -> ->.
    + rewrite app_nil_r. exact Ha.
    + specialize (IH _ Hrest pre post ev eq_refl).
      rewrite <- app_assoc in IH. exact IH.
Qed.

Lemma try_free_bind {A B : Type} (m : script A) (f : A -> script B) :
  try_free m -> (forall a, try_free (f a)) -> try_free (bind m f).
Proof.
  intros Hm Hf. induction m; cbn in *; auto.
Qed.

Lemma try_free_do {X : Type} (c : call X) : try_free (do c).
Proof. intros x. exact I. Qed.

Lemma try_free_getitem {V : Type} (d : gmap string V) (key : string) :
  try_free (getitem d key).
Proof. unfold getitem. destruct (d !! key); exact I. Qed.

Lemma try_free_if {R : Type} (b : bool) (s1 s2 : script R) :
  try_free s1 -> try_free s2 -> try_free (if b then s1 else s2).
Proof. by destruct b. Qed.

Ltac try_free_steps :=
  repeat match goal with
    | |- forall _, _ => intros ?
    | |- try_free (bind _ _) => apply try_free_bind
    | |- try_free (do _) => apply try_free_do
    | |- try_free (getitem _ _) => apply try_free_getitem
    | |- try_free (if _ then _ else _) => apply try_free_if
    | |- try_free read_self => intros ?; exact I
    | |- try_free (assign_test_success _) => exact I
    | |- _ => progress cbv beta zeta
    end.

Lemma try_free_update_generated_surface_tag (e : Entity) (i tag : Z) :
  try_free (update_generated_surface_tag e i tag).
Proof. unfold update_generated_surface_tag. try_free_steps. Qed.

Lemma try_free_update_surface_tag_inclusion_list (e : Entity) (i tag : Z) :
  try_free (update_surface_tag_inclusion_list e i tag).
Proof. unfold update_surface_tag_inclusion_list. try_free_steps. Qed.

Lemma try_free_run_test (sep : string) : try_free (run_test sep).
Proof.
  unfold run_test. try_free_steps.
  all: first [ apply try_free_update_generated_surface_tag
             | apply try_free_update_surface_tag_inclusion_list ].
Qed.

Lemma answered_no_raise (tr : list event) : answered tr <-> no_raise tr = true.
Proof.
  unfold answered. induction tr as [|a tr IH]; cbn.
  - split; [reflexivity|]. intros _ ev Hin. apply elem_of_nil in Hin. contradiction.
  - split.
    + intros H. rewrite (H a (list_elem_of_here a tr)). apply IH.
      intros ev Hin. apply H. apply list_elem_of_further, Hin.
    + destruct (event_exn a) eqn:Ha; [discriminate|].
      intros H ev Hin. apply elem_of_cons in Hin as [->|Hin]; [exact Ha|].
      apply IH; assumption.
Qed.

(** A trace that ends in a raise was not answered throughout. *)
Ltac not_answered Ha :=
  apply answered_no_raise in Ha; cbn in Ha; discriminate Ha.

(** The run at hand stopped at a call that raised. *)
Ltac is_cut_short := eexists _, _; repeat split; reflexivity.

Section Propagation.

Variable world : Type.
Variable respond : forall X : Type, call X -> world -> reply X * world.

(** In a script without [try], a call that raises is the last thing that
    happens, and its exception is the outcome of the run. *)
Lemma raise_ends_run {R : Type} (s : script R) :
  try_free s ->
  forall (self : EditorTestHelper) (w : world) (ev : event) (e : exn),
    ev ∈ trace (exec respond s self w) ->
    event_exn ev = Some e ->
    outcome (exec respond s self w) = Raised e /\
    last (trace (exec respond s self w)) = Some ev.
Proof.
  induction s as [R r|R e0|R X c k IH|R k IH|R b k IH|R A body IHb handler IHh k IHk];
    intros Hfree self w ev e Hin Hexn; cbn in *.
  - apply elem_of_nil in Hin. contradiction.
  - apply elem_of_nil in Hin. contradiction.
  - destruct (respond X c w) as [[x|e1] w']; cbn in *.
    + apply elem_of_cons in Hin as [->|Hin]; [discriminate Hexn|].
      destruct (IH x (Hfree x) self w' ev e Hin Hexn) as [Ho Hl].
      split; [exact Ho|].
      destruct (trace (exec respond (k x) self w')); [discriminate Hl | exact Hl].
    + apply list_elem_of_singleton in Hin as ->. cbn in Hexn.
      injection Hexn as ->. split; reflexivity.
  - apply (IH self (Hfree self)); assumption.
  - apply elem_of_cons in Hin as [->|Hin]; [discriminate Hexn|].
    destruct (IH Hfree (set_test_success b self) w ev e Hin Hexn) as [Ho Hl].
    split; [exact Ho|].
    destruct (trace (exec respond k (set_test_success b self) w));
      [discriminate Hl | exact Hl].
  - contradiction.
Qed.

End Propagation.

Arguments with_readback {world} rb respond X !c w /.

Section Run.

Variable world : Type.
Variable respond : forall X : Type, call X -> world -> reply X * world.

(** C1. With the inclusion list set to the terrainHole tag and no weight of
    the filter written, the first check asks [GetInstanceCountInAabb] about the
    spawner's encompassing box and assigns [test_success and num_found == 130].
    The second assignment of a run directly follows the first count query and
    its log line, the value assigned is the earlier value conjoined with the
    comparison against 130, and so it stays true exactly when the editor
    reported 130.  Given a "level" argument the script does get there: only a
    call that raises stops it short of that assignment, and it makes the
    assignment whenever the editor answers its calls. *)
Theorem first_check_expects_130 (sep : string) (self : EditorTestHelper) (w : world) :
  let r := exec respond (run_test sep) self w in
  (forall b1 : bool, writes (trace r) !! 1%nat = Some b1 -> first_check (trace r) b1) /\
  (forall level : string, args self !! "level" = Some level ->
     (writes (trace r) !! 1%nat = None -> cut_short r) /\
     (answered (trace r) ->
      exists b1 : bool, writes (trace r) !! 1%nat = Some b1 /\ first_check (trace r) b1)).
Proof.
  run_cases respond.
  all: split;
    [ intros b1 Hw; try discriminate Hw; injection Hw as <-
    | intros level0 Hl;
      first [ discriminate Hl
            | split; [ intros Hn; try discriminate Hn; is_cut_short
                     | intros Ha; first [ not_answered Ha
                                        | eexists; split; [reflexivity|] ] ] ] ].
  all: eexists [_;_;_;_;_;_;_;_;_;_;_;_;_;_;_;_;_;_;_;_;_;_;_;_], _, _, _, _, _, _.
  all: split; [reflexivity|]; cbn.
  all: repeat split; try reflexivity.
  all: rewrite andb_true_iff, Z.eqb_eq; tauto.
Qed.

(** C2. After [get_set_test] has set "Configuration|Inclusion|Weight Max" to
    0.9, which is below 1.0, and a further wait, the script asks for the count
    in the same box again and assigns [test_success and num_found == 0]: the
    third assignment of a run ends the trace right after the second count query
    and its log line, and it stays true exactly when the editor reported no
    instances.  Given a "level" argument the script does get there: only a call
    that raises stops it short of that assignment, and it makes the assignment
    whenever the editor answers its calls. *)
Theorem second_check_expects_0 (sep : string) (self : EditorTestHelper) (w : world) :
  let r := exec respond (run_test sep) self w in
  (forall b2 : bool, writes (trace r) !! 2%nat = Some b2 -> second_check (trace r) b2) /\
  (forall level : string, args self !! "level" = Some level ->
     (writes (trace r) !! 2%nat = None -> cut_short r) /\
     (answered (trace r) ->
      exists b2 : bool, writes (trace r) !! 2%nat = Some b2 /\ second_check (trace r) b2)).
Proof.
  run_cases respond.
  all: split;
    [ intros b2 Hw; try discriminate Hw; injection Hw as <-
    | intros level0 Hl;
      first [ discriminate Hl
            | split; [ intros Hn; try discriminate Hn; is_cut_short
                     | intros Ha; first [ not_answered Ha
                                        | eexists; split; [reflexivity|] ] ] ] ].
  all: eexists [_;_;_;_;_;_;_;_;_;_;_;_;_;_;_;_;_;_;_;_;_;_;_;_;_;_;_;_], _, _, _, _, _, _.
  all: split; [reflexivity|]; cbn.
  all: repeat split; try reflexivity.
  all: rewrite andb_true_iff, Z.eqb_eq; tauto.
Qed.

(** C3, amended.  [test_success] only ever goes down, in every run: the values
    assigned to it never return to true after a false, and a false among them
    leaves it false when the run ends, however it ends.  What is assigned is
    the reply of [create_level], then its conjunction with each count
    comparison, as far as the run gets; [test_success] ends as the last value
    assigned, or as it started when [create_level] never returned.  When
    [run_test] returns, which it does whenever it has a "level" argument and
    the editor answers its calls, all three assignments were made and
    [test_success] is true exactly when the level was created and the counts
    were 130 and 0. *)
Theorem test_success_only_decreases (sep : string) (self : EditorTestHelper) (w : world) :
  let r := exec respond (run_test sep) self w in
  (forall (i j : nat) (b : bool), (i <= j)%nat ->
     writes (trace r) !! i = Some false -> writes (trace r) !! j = Some b -> b = false) /\
  (false ∈ writes (trace r) -> test_success (self_end r) = false) /\
  writes (trace r) `prefix_of` assigned (trace r) /\
  test_success (self_end r) = default (test_success self) (last (writes (trace r))) /\
  (outcome r = Returned tt -> verdict r) /\
  (forall level : string, args self !! "level" = Some level -> answered (trace r) ->
     outcome r = Returned tt /\ verdict r).
Proof.
  run_cases respond.
  all: split;
    [ intros i j b Hij Hi Hj;
      destruct i as [|[|[|i]]]; try discriminate Hi;
      destruct j as [|[|[|j]]]; try discriminate Hj; try lia;
      injection Hi as Hi; injection Hj as <-; rewrite ?Hi; reflexivity |].
  all: split;
    [ rewrite ?elem_of_cons, elem_of_nil; intros Hin;
      repeat destruct Hin as [Hin|Hin]; try contradiction;
      rewrite <- ?Hin; reflexivity |].
  all: split; [eexists; reflexivity|].
  all: split; [reflexivity|].
  all: split;
    [ intros Ho; try discriminate Ho
    | intros level0 Hl; try discriminate Hl; intros Ha;
      first [ not_answered Ha | split; [reflexivity|] ] ].
  all: unfold verdict; do 5 eexists; do 4 (split; [reflexivity|]).
  all: cbn; rewrite !andb_true_iff, !Z.eqb_eq; tauto.
Qed.

(** C4, amended.  Each helper sets the tag, reads it back and compares the
    two, and the comparison does no more than choose the line that is logged
    or printed: the success line when they are equal, the failure line when
    they are not.  Neither helper assigns [test_success] or changes [self]. *)
Theorem readback_only_selects_the_line (Entity : Entity) (component_index surface_tag : Z)
    (self : EditorTestHelper) (w : world) :
  helper_run self (generated_tag_trace Entity component_index surface_tag)
    (exec respond (update_generated_surface_tag Entity component_index surface_tag) self w)
  /\
  helper_run self (inclusion_list_trace Entity component_index surface_tag)
    (exec respond (update_surface_tag_inclusion_list Entity component_index surface_tag)
       self w).
Proof.
  unfold helper_run, update_generated_surface_tag, update_surface_tag_inclusion_list.
  split; cbn; repeat step respond.
  all: repeat split; try reflexivity; intros Ho; try discriminate Ho.
  all: eexists _, _; reflexivity.
Qed.

Lemma settled_throughout (sep : string) (self : EditorTestHelper) (w : world) :
  let r := exec respond (run_test sep) self w in
  holds_throughout query_is_settled [] (trace r) = true.
Proof. run_cases respond; reflexivity. Qed.

(** C5, amended.  Every [GetInstanceCountInAabb] request of a run comes after
    [general.idle_wait(2.0)] with no change of configuration in between: the
    wait is the call just before the request, except for the first request,
    where the [GetEncompassingAabb] request stands between the wait and the
    count. *)
Theorem count_queries_are_settled (sep : string) (self : EditorTestHelper) (w : world)
    (pre post : list event) (ev : event) :
  let r := exec respond (run_test sep) self w in
  trace r = (pre ++ ev :: post)%list ->
  is_count_query ev = true ->
  settled pre = true.
Proof.
  intros r Heq Hq.
  pose proof (holds_throughout_spec query_is_settled (trace r) []
                (settled_throughout sep self w) pre post ev Heq) as H.
  unfold query_is_settled in H. rewrite Hq in H. exact H.
Qed.

(** C6. A run of [run_test] that returns has asked for the instance count
    exactly twice, once before and once after the weight maximum is written,
    and each count is logged and compared with its literal, 130 and then 0, in
    the assignment that follows.  Given a "level" argument, [run_test] returns,
    with these two checks made, whenever the editor answers its calls. *)
Theorem exactly_two_count_queries (sep : string) (self : EditorTestHelper) (w : world) :
  let r := exec respond (run_test sep) self w in
  (outcome r = Returned tt -> two_count_checks (trace r)) /\
  (forall level : string, args self !! "level" = Some level -> answered (trace r) ->
     outcome r = Returned tt /\ two_count_checks (trace r)).
Proof.
  run_cases respond.
  all: split;
    [ intros Ho; try discriminate Ho
    | intros level0 Hl; try discriminate Hl; intros Ha;
      first [ not_answered Ha | split; [reflexivity|] ] ].
  all: eexists [_;_;_;_;_;_;_;_;_;_;_;_;_;_;_;_;_;_;_;_;_;_;_;_;_], [_;_], _, _, _, _, _.
  all: split; [reflexivity|]; cbn.
  all: repeat split; try reflexivity.
  all: repeat constructor; discriminate.
Qed.

(** C7. A run of [run_test] that returns has created one vegetation area
    and two surface entities, has set the generated tag of the first surface
    entity to terrainHole (1327698037) and of the second to terrain
    (3363197873), and only then has set the first inclusion tag of the
    spawner's filter to terrainHole.  Given a "level" argument, [run_test]
    returns, with this scene built, whenever the editor answers its calls. *)
Theorem scene_before_inclusion_list (sep : string) (self : EditorTestHelper) (w : world) :
  let r := exec respond (run_test sep) self w in
  (outcome r = Returned tt -> scene_built (trace r)) /\
  (forall level : string, args self !! "level" = Some level -> answered (trace r) ->
     outcome r = Returned tt /\ scene_built (trace r)).
Proof.
  run_cases respond.
  all: split;
    [ intros Ho; try discriminate Ho
    | intros level0 Hl; try discriminate Hl; intros Ha;
      first [ not_answered Ha | split; [reflexivity|] ] ].
  all: eexists [_;_;_;_;_;_;_;_;_;_;_;_;_;_;_;_;_;_;_], _, _, _, _, _, _, _.
  all: split; [reflexivity|]; cbn.
  all: repeat split; reflexivity.
Qed.

(** C8. [run_test] has no [try]/[except], and whichever call raises, the run
    stops there: the raising call is the last event of the trace and the
    exception it raised is the outcome of [run_test], unchanged. *)
Theorem exceptions_leave_run_test (sep : string) (self : EditorTestHelper) (w : world) :
  let r := exec respond (run_test sep) self w in
  try_free (run_test sep) /\
  forall (ev : event) (e : exn),
    ev ∈ trace r -> event_exn ev = Some e ->
    outcome r = Raised e /\ last (trace r) = Some ev.
Proof.
  intros r. split.
  - apply try_free_run_test.
  - apply raise_ends_run, try_free_run_test.
Qed.

(** One step of two runs side by side. *)
Ltac step2 Hinert :=
  match goal with
  | |- context [bind (if ?b then do (log ?m1) else do (log ?m2)) ?f] =>
      rewrite (bind_if_log b m1 m2 f); cbn
  | |- context [bind (if ?b then do (print ?m1) else do (print ?m2)) ?f] =>
      rewrite (bind_if_print b m1 m2 f); cbn
  | |- context [respond unit (log ?m) ?w] =>
      match goal with
      | |- context [respond unit (log ?m') w] =>
          tryif constr_eq m m' then fail else rewrite (proj2 (Hinert m' m w))
      end
  | |- context [respond unit (print ?m) ?w] =>
      match goal with
      | |- context [respond unit (print ?m') w] =>
          tryif constr_eq m m' then fail else rewrite (proj1 (Hinert m' m w))
      end
  | |- context [respond ?X ?c ?w] =>
      let E := fresh "E" in
      lazymatch X with
      | unit => destruct (respond X c w) as [[[]|?e] ?w'] eqn:E
      | _ => destruct (respond X c w) as [[?x|?e] ?w'] eqn:E
      end; cbn
  end.

(** C9. The values read back never reach [test_success].  Against an editor
    for which output is only output, replacing every value read back by any
    other leaves the assignments to [test_success], its final value and the
    outcome of the run as they were.  Against any editor there are at most
    three assignments, and in a run that returns exactly three: the reply of
    [create_level] and the two count comparisons. *)
Theorem readback_never_reaches_test_success
    (rb : Component -> string -> value -> value)
    (sep : string) (self : EditorTestHelper) (w : world) :
  let r := exec respond (run_test sep) self w in
  let r' := exec (with_readback rb respond) (run_test sep) self w in
  (output_inert respond ->
   readbacks (trace r') = map (fun '(c, p, v) => (c, p, rb c p v)) (readbacks (trace r)) /\
   same_verdict r r') /\
  (length (writes (trace r)) <= 3)%nat /\
  (outcome r = Returned tt -> verdict r).
Proof.
  intros r r'. split.
  - intros Hinert.
    assert (Hr : exec respond (run_test sep) self w = r) by reflexivity.
    assert (Hr' : exec (with_readback rb respond) (run_test sep) self w = r')
      by reflexivity.
    clearbody r r'. revert Hr Hr'.
    unfold run_test, update_generated_surface_tag, update_surface_tag_inclusion_list.
    rewrite !getitem_terrainHole, !getitem_terrain. unfold getitem. cbn.
    destruct (args self !! "level") as [level|]; cbn.
    all: repeat step2 Hinert.
    all: intros <- <-; unfold same_verdict; cbn.
    all: repeat split; reflexivity.
  - clear r'. revert r. run_cases respond.
    all: split; [cbn; lia|].
    all: intros Ho; try discriminate Ho.
    unfold verdict. do 5 eexists. do 4 (split; [reflexivity|]).
    cbn. rewrite !andb_true_iff, !Z.eqb_eq. tauto.
Qed.

(** C10. In a run of [run_test] that returns, [GetEncompassingAabb] is asked
    once, before the weight maximum is written, and the box it returned is the
    argument of the count request on both sides of that write.  Given a "level"
    argument, [run_test] returns, having done so, whenever the editor answers
    its calls. *)
Theorem one_box_for_both_queries (sep : string) (self : EditorTestHelper) (w : world) :
  let r := exec respond (run_test sep) self w in
  (outcome r = Returned tt -> one_box (trace r)) /\
  (forall level : string, args self !! "level" = Some level -> answered (trace r) ->
     outcome r = Returned tt /\ one_box (trace r)).
Proof.
  run_cases respond.
  all: split;
    [ intros Ho; try discriminate Ho
    | intros level0 Hl; try discriminate Hl; intros Ha;
      first [ not_answered Ha | split; [reflexivity|] ] ].
  all: eexists [_;_;_;_;_;_;_;_;_;_;_;_;_;_;_;_;_;_;_;_;_;_;_;_], [_;_;_], _, _, _, _, _.
  all: split; [reflexivity|]; cbn.
  all: repeat split; try reflexivity.
  all: repeat constructor; discriminate.
Qed.

End Run.

(** ** The small editor: concrete runs *)

Lemma toy_respond_output_inert (q : quirk) : output_inert (toy_respond q).
Proof. intros m m' w. split; reflexivity. Qed.

Lemma toy_self_level : args toy_self !! "level" = Some "tmp_level".
Proof. reflexivity. Qed.

Lemma toy_run_answered : answered (trace (toy_run Sound)).
Proof. apply answered_no_raise. vm_compute. reflexivity. Qed.

(** C3 as written fails: against the editor whose count request raises, the
    level is created, no count is ever compared, and [run_test] is left with
    [test_success] true. *)
Lemma raised_run_ends_true : ~ final_value_iff (toy_run CountRaises).
Proof.
  intros [H _].
  destruct (H eq_refl) as (box1 & box2 & _ & Hq).
  vm_compute in Hq. discriminate Hq.
Qed.

(** C5 as written fails: against the small editor the call just before the
    first count request is [GetEncompassingAabb], not the wait. *)
Lemma first_query_follows_the_box_request :
  ~ waits_right_before_queries (trace (toy_run Sound)).
Proof.
  intros H.
  specialize (H (take 25 (trace (toy_run Sound))) (drop 26 (trace (toy_run Sound)))
                (ECall (GetInstanceCountInAabb toy_box) (Returned 130))).
  assert (Hw : wait_is_last (take 25 (trace (toy_run Sound))) = false)
    by (vm_compute; reflexivity).
  rewrite H in Hw; [discriminate Hw | vm_compute; reflexivity | reflexivity].
Qed.

(** C4 as written fails: against the editor that drops tags, the tag read
    back differs from the tag set, and [run_test] still ends with
    [test_success] true. *)
Lemma dropped_tag_still_passes :
  ~ readbacks_match (toy_run ForgetsTags) /\ ~ mismatch_fails_test (toy_run ForgetsTags).
Proof.
  assert (Hset : (mkComponent 2 1, "Configuration|Generated Tags|[0]|Surface Tag",
                  VInt 1327698037) ∈ property_sets (trace (toy_run ForgetsTags))).
  { apply list_elem_of_lookup. exists 0%nat. vm_compute. reflexivity. }
  assert (Hget : (mkComponent 2 1, "Configuration|Generated Tags|[0]|Surface Tag",
                  VNone) ∈ readbacks (trace (toy_run ForgetsTags))).
  { apply list_elem_of_lookup. exists 0%nat. vm_compute. reflexivity. }
  split; intros H.
  - specialize (H _ _ _ _ Hset Hget). discriminate H.
  - specialize (H _ _ _ _ Hset Hget eq_refl). vm_compute in H. discriminate H.
Qed.

(** Witnesses: the theorems above at the small editor. *)

Lemma first_check_expects_130_witness :
  args toy_self !! "level" = Some "tmp_level" /\
  answered (trace (toy_run Sound)) /\
  exists b1 : bool,
    writes (trace (toy_run Sound)) !! 1%nat = Some b1 /\
    first_check (trace (toy_run Sound)) b1.
Proof.
  split; [exact toy_self_level|]. split; [exact toy_run_answered|].
  exact (proj2 (proj2 (first_check_expects_130 toy_world (toy_respond Sound) "/"
                         toy_self toy_start) "tmp_level" toy_self_level)
           toy_run_answered).
Defined.

Lemma second_check_expects_0_witness :
  args toy_self !! "level" = Some "tmp_level" /\
  answered (trace (toy_run Sound)) /\
  exists b2 : bool,
    writes (trace (toy_run Sound)) !! 2%nat = Some b2 /\
    second_check (trace (toy_run Sound)) b2.
Proof.
  split; [exact toy_self_level|]. split; [exact toy_run_answered|].
  exact (proj2 (proj2 (second_check_expects_0 toy_world (toy_respond Sound) "/"
                         toy_self toy_start) "tmp_level" toy_self_level)
           toy_run_answered).
Defined.

Lemma test_success_only_decreases_witness :
  args toy_self !! "level" = Some "tmp_level" /\
  answered (trace (toy_run Sound)) /\
  outcome (toy_run Sound) = Returned tt /\ verdict (toy_run Sound).
Proof.
  split; [exact toy_self_level|]. split; [exact toy_run_answered|].
  destruct (test_success_only_decreases toy_world (toy_respond Sound) "/"
              toy_self toy_start) as (_ & _ & _ & _ & _ & H).
  exact (H "tmp_level" toy_self_level toy_run_answered).
Defined.

Lemma count_queries_are_settled_witness :
  trace (toy_run Sound)
    = (take 25 (trace (toy_run Sound))
       ++ ECall (GetInstanceCountInAabb toy_box) (Returned 130)
       :: drop 26 (trace (toy_run Sound)))%list /\
  is_count_query (ECall (GetInstanceCountInAabb toy_box) (Returned 130)) = true /\
  settled (take 25 (trace (toy_run Sound))) = true.
Proof.
  assert (Heq : trace (toy_run Sound)
                = (take 25 (trace (toy_run Sound))
                   ++ ECall (GetInstanceCountInAabb toy_box) (Returned 130)
                   :: drop 26 (trace (toy_run Sound)))%list) by reflexivity.
  split; [exact Heq|]. split; [reflexivity|].
  exact (count_queries_are_settled toy_world (toy_respond Sound) "/" toy_self toy_start
           _ _ _ Heq eq_refl).
Defined.

Lemma exactly_two_count_queries_witness :
  args toy_self !! "level" = Some "tmp_level" /\
  answered (trace (toy_run Sound)) /\
  outcome (toy_run Sound) = Returned tt /\ two_count_checks (trace (toy_run Sound)).
Proof.
  split; [exact toy_self_level|]. split; [exact toy_run_answered|].
  exact (proj2 (exactly_two_count_queries toy_world (toy_respond Sound) "/"
                  toy_self toy_start) "tmp_level" toy_self_level toy_run_answered).
Defined.

Lemma scene_before_inclusion_list_witness :
  args toy_self !! "level" = Some "tmp_level" /\
  answered (trace (toy_run Sound)) /\
  outcome (toy_run Sound) = Returned tt /\ scene_built (trace (toy_run Sound)).
Proof.
  split; [exact toy_self_level|]. split; [exact toy_run_answered|].
  exact (proj2 (scene_before_inclusion_list toy_world (toy_respond Sound) "/"
                  toy_self toy_start) "tmp_level" toy_self_level toy_run_answered).
Defined.

Lemma exceptions_leave_run_test_witness :
  event_exn (ECall (GetInstanceCountInAabb toy_box)
               (Raised (RuntimeError "area system unavailable")))
    = Some (RuntimeError "area system unavailable") /\
  outcome (toy_run CountRaises) = Raised (RuntimeError "area system unavailable") /\
  last (trace (toy_run CountRaises))
    = Some (ECall (GetInstanceCountInAabb toy_box)
              (Raised (RuntimeError "area system unavailable"))).
Proof.
  split; [reflexivity|].
  apply (proj2 (exceptions_leave_run_test toy_world (toy_respond CountRaises) "/"
                  toy_self toy_start)).
  - apply list_elem_of_lookup. exists 25%nat. reflexivity.
  - reflexivity.
Defined.

Lemma readback_never_reaches_test_success_witness :
  output_inert (toy_respond Sound) /\
  same_verdict (toy_run Sound)
    (exec (with_readback (fun _ _ _ => VNone) (toy_respond Sound))
       (run_test "/") toy_self toy_start).
Proof.
  split; [apply toy_respond_output_inert|].
  apply (readback_never_reaches_test_success toy_world (toy_respond Sound)
           (fun _ _ _ => VNone) "/" toy_self toy_start).
  apply toy_respond_output_inert.
Defined.

Lemma one_box_for_both_queries_witness :
  args toy_self !! "level" = Some "tmp_level" /\
  answered (trace (toy_run Sound)) /\
  outcome (toy_run Sound) = Returned tt /\ one_box (trace (toy_run Sound)).
Proof.
  split; [exact toy_self_level|]. split; [exact toy_run_answered|].
  exact (proj2 (one_box_for_both_queries toy_world (toy_respond Sound) "/"
                  toy_self toy_start) "tmp_level" toy_self_level toy_run_answered).
Defined.

(** * Further properties of the script *)

Arguments with_level_reply {world} created respond X !c w /.

Lemma length_append (s t : string) :
  String.length (s +:+ t) = (String.length s + String.length t)%nat.
Proof.
  induction s as [|a s IH]; [reflexivity|].
  change (S (String.length (s +:+ t)) = S (String.length s + String.length t)).
  rewrite IH. reflexivity.
Qed.

(** Strings that agree after the same suffix is appended are equal. *)
Lemma append_cancel_r (s1 s2 t : string) : s1 +:+ t = s2 +:+ t -> s1 = s2.
Proof.
  intros H.
  assert (Hlen : String.length s1 = String.length s2).
  { apply (f_equal String.length) in H. rewrite !length_append in H. lia. }
  revert s2 H Hlen. induction s1 as [|a s1 IH]; intros [|b s2] H Hlen;
    try discriminate Hlen; [reflexivity|].
  change (String a (s1 +:+ t) = String b (s2 +:+ t)) in H.
  injection H as -> H. f_equal. apply IH; [exact H|].
  cbn in Hlen. lia.
Qed.

Section Further.

Variable world : Type.
Variable respond : forall X : Type, call X -> world -> reply X * world.

(** X1. Without a "level" argument [run_test] raises [KeyError] on
    [self.args["level"]] before it has asked the editor anything: no call is
    made, and [self] and the editor are left as they were. *)
Theorem missing_level_argument (sep : string) (self : EditorTestHelper) (w : world) :
  args self !! "level" = None ->
  let r := exec respond (run_test sep) self w in
  trace r = [] /\ outcome r = Raised (KeyError "level") /\
  self_end r = self /\ world_end r = w.
Proof.
  intros Hnone r.
  assert (Hr : r = mkRun [] self w (Raised (KeyError "level"))).
  { subst r. unfold run_test. cbn. unfold getitem at 1. rewrite Hnone. reflexivity. }
  rewrite Hr. repeat split; reflexivity.
Qed.

(** X2. [run_test] assigns [test_success] from [create_level] rather than
    conjoining with what was there: whatever [test_success] held before, the
    run makes the same calls, ends the same way and, once [create_level] has
    returned, leaves the same [test_success]. *)
Theorem earlier_test_success_is_overwritten (sep : string) (self : EditorTestHelper)
    (w : world) (b : bool) :
  let r := exec respond (run_test sep) self w in
  let r' := exec respond (run_test sep) (set_test_success b self) w in
  trace r' = trace r /\ outcome r' = outcome r /\ world_end r' = world_end r /\
  (writes (trace r) <> [] -> test_success (self_end r') = test_success (self_end r)).
Proof.
  intros r r'.
  assert (Hr : exec respond (run_test sep) self w = r) by reflexivity.
  assert (Hr' : exec respond (run_test sep) (set_test_success b self) w = r')
    by reflexivity.
  clearbody r r'. revert Hr Hr'.
  unfold run_test, update_generated_surface_tag, update_surface_tag_inclusion_list.
  rewrite !getitem_terrainHole, !getitem_terrain. unfold getitem. cbn.
  destruct (args self !! "level") as [level|]; cbn.
  all: repeat step respond.
  all: intros <- <-; cbn.
  all: repeat split; try reflexivity.
  all: intros Hw; contradiction.
Qed.

(** X3. A level that could not be created does not stop the script.  When
    [create_level] returns false, [run_test] assigns false and carries on with
    [set_current_view_position]; every later assignment is false as well,
    [test_success] ends false, and a run that returns has still asked for both
    counts. *)
Theorem failed_level_creation_does_not_stop (sep : string) (self : EditorTestHelper)
    (w : world) :
  let r := exec respond (run_test sep) self w in
  create_level_replies (trace r) = [Returned false] ->
  (exists (level : string) (rep : reply unit) (rest : list event),
     args self !! "level" = Some level /\
     trace r = ECall (create_level level 1024 1 4096 false) (Returned false)
               :: EWrite false
               :: ECall (set_current_view_position 512.0 480.0 38.0) rep
               :: rest) /\
  Forall (fun b => b = false) (writes (trace r)) /\
  test_success (self_end r) = false /\
  (outcome r = Returned tt -> length (count_queries (trace r)) = 2%nat).
Proof.
  intros r.
  assert (Hr : exec respond (run_test sep) self w = r) by reflexivity.
  clearbody r. revert Hr.
  unfold run_test, update_generated_surface_tag, update_surface_tag_inclusion_list.
  unfold getitem at 1.
  rewrite !getitem_terrainHole, getitem_terrain; cbn.
  destruct (args self !! "level") as [level|] eqn:Hlevel; cbn.
  all: repeat step respond.
  all: intros <-; cbn.
  all: intros Hc; try discriminate Hc.
  all: injection Hc as ->.
  all: split; [eexists _, _, _; split; reflexivity|].
  all: split; [repeat constructor|].
  all: split; [reflexivity|].
  all: intros Ho; try discriminate Ho; reflexivity.
Qed.

(** X5. Given a "level" argument and an editor that answers, [run_test]
    returns having waited three times, two seconds each: at the end of
    [update_surface_tag_inclusion_list] and again right after it, before
    anything has been counted, and a third time directly after the write to
    the weight maximum, before the second count.  Nothing else waits, and the
    weight maximum is the only property written from the first wait on. *)
Theorem three_waits_of_two_seconds (sep : string) (self : EditorTestHelper) (w : world)
    (level : string) :
  let r := exec respond (run_test sep) self w in
  args self !! "level" = Some level ->
  answered (trace r) ->
  outcome r = Returned tt /\
  waits (trace r) = [2.0; 2.0; 2.0]%Q /\
  exists (pre mid post : list event) (spawner : Entity),
    trace r = (pre
               ++ [ECall (idle_wait 2.0) (Returned tt);
                   ECall (idle_wait 2.0) (Returned tt)]
               ++ mid
               ++ [ECall (get_set_test spawner 3
                            "Configuration|Inclusion|Weight Max" (VFloat 0.9))
                         (Returned tt);
                   ECall (idle_wait 2.0) (Returned tt)]
               ++ post)%list /\
    waits pre = [] /\ count_queries pre = [] /\
    waits mid = [] /\ omap property_written mid = [] /\
    length (count_queries mid) = 1%nat /\
    waits post = [] /\ omap property_written post = [] /\
    length (count_queries post) = 1%nat.
Proof.
  run_cases respond; intros Hl; try discriminate Hl; intros Ha.
  all: first [ not_answered Ha | split; [reflexivity|] ].
  split; [reflexivity|].
  eexists [_;_;_;_;_;_;_;_;_;_;_;_;_;_;_;_;_;_;_;_;_;_], [_;_;_;_], _, _.
  split; [reflexivity|]. cbn. repeat split; reflexivity.
Qed.

(** X6. How [run_test] uses its helpers.  Given a "level" argument and an
    editor that answers, [run_test] returns, and its trace after the first
    surface entity is created is what [update_generated_surface_tag] leaves for
    component 1 of that entity and tag 1327698037, then the creation of the
    second surface entity, then the same helper for component 1 of the second
    entity and tag 3363197873, then what [update_surface_tag_inclusion_list]
    leaves for component 3 of the spawner and tag 1327698037.  Before and after
    these no property is set or written, no value is read back and no
    component is looked up, except the write to the weight maximum after
    them. *)
Theorem helpers_in_order (sep : string) (self : EditorTestHelper) (w : world)
    (level : string) :
  let r := exec respond (run_test sep) self w in
  args self !! "level" = Some level ->
  answered (trace r) ->
  outcome r = Returned tt /\
  exists (pre post : list event) (spawner s1 s2 : Entity)
         (c1 c2 c3 : Component) (v1 v2 v3 : value),
    trace r = (pre
               ++ generated_tag_trace s1 1 1327698037 c1 v1
               ++ [ECall (create_surface_entity "Surface Entity 2"
                            (mkVector3 520.0 512.0 32.0) 10.0 10.0 1.0) (Returned s2)]
               ++ generated_tag_trace s2 1 3363197873 c2 v2
               ++ inclusion_list_trace spawner 3 1327698037 c3 v3
               ++ post)%list /\
    vegetation_areas pre = [("Instance Spawner", Returned spawner)] /\
    surface_entities pre = [("Surface Entity 1", Returned s1)] /\
    property_sets pre = [] /\ omap property_written pre = [] /\
    readbacks pre = [] /\ component_lookups pre = [] /\
    property_sets post = [] /\
    omap property_written post = ["Configuration|Inclusion|Weight Max"] /\
    readbacks post = [] /\ component_lookups post = [].
Proof.
  run_cases respond; intros Hl; try discriminate Hl; intros Ha.
  all: first [ not_answered Ha | split; [reflexivity|] ].
  eexists [_;_;_;_;_;_], _, _, _, _, _, _, _, _, _, _.
  split; [reflexivity|]. cbn. repeat split; reflexivity.
Qed.

End Further.

(** X7. The log line of a count check can be read back: for a given expected
    count, different counts found give different lines, and the line of the
    first check (expecting 130) is never the line of the second (expecting
    0). *)
Theorem count_message_tells_the_count (num_expected_instances n n' : Z) :
  (count_message num_expected_instances n = count_message num_expected_instances n'
   -> n = n') /\
  count_message 130 n <> count_message 0 n'.
Proof.
  unfold count_message, str_int. split.
  - intros H.
    do 3 apply (inj (String.append _)) in H. apply append_cancel_r in H.
    exact (inj pretty _ _ H).
  - intros H. apply (inj (String.append "Expected ")) in H.
    vm_compute in H. discriminate H.
Qed.

(** Witnesses for the further properties. *)

Lemma missing_level_argument_witness :
  args toy_self_without_level !! "level" = None /\
  outcome (exec (toy_respond Sound) (run_test "/") toy_self_without_level toy_start)
    = Raised (KeyError "level").
Proof.
  split; [reflexivity|].
  apply (missing_level_argument toy_world (toy_respond Sound) "/"
           toy_self_without_level toy_start).
  reflexivity.
Defined.

Lemma failed_level_creation_does_not_stop_witness :
  create_level_replies
    (trace (exec (with_level_reply false (toy_respond Sound)) (run_test "/")
              toy_self toy_start))
    = [Returned false] /\
  outcome (exec (with_level_reply false (toy_respond Sound)) (run_test "/")
             toy_self toy_start) = Returned tt /\
  test_success (self_end (exec (with_level_reply false (toy_respond Sound))
                            (run_test "/") toy_self toy_start)) = false.
Proof.
  split; [reflexivity|]. split; [reflexivity|].
  apply (failed_level_creation_does_not_stop toy_world
           (with_level_reply false (toy_respond Sound)) "/" toy_self toy_start).
  reflexivity.
Defined.

Lemma three_waits_of_two_seconds_witness :
  args toy_self !! "level" = Some "tmp_level" /\
  answered (trace (toy_run Sound)) /\
  outcome (toy_run Sound) = Returned tt /\
  waits (trace (toy_run Sound)) = [2.0; 2.0; 2.0]%Q.
Proof.
  split; [exact toy_self_level|]. split; [exact toy_run_answered|].
  destruct (three_waits_of_two_seconds toy_world (toy_respond Sound) "/" toy_self
              toy_start "tmp_level" toy_self_level toy_run_answered) as (Ho & Hw & _).
  split; [exact Ho | exact Hw].
Defined.

Lemma helpers_in_order_witness :
  args toy_self !! "level" = Some "tmp_level" /\
  answered (trace (toy_run Sound)) /\
  exists (pre post : list event) (spawner : Entity) (c3 : Component) (v3 : value),
    trace (toy_run Sound)
    = (pre ++ inclusion_list_trace spawner 3 1327698037 c3 v3 ++ post)%list.
Proof.
  split; [exact toy_self_level|]. split; [exact toy_run_answered|].
  destruct (helpers_in_order toy_world (toy_respond Sound) "/" toy_self toy_start
              "tmp_level" toy_self_level toy_run_answered)
    as (_ & pre & post & sp & s1 & s2 & c1 & c2 & c3 & v1 & v2 & v3 & Htr & _).
  exists (pre ++ generated_tag_trace s1 1 1327698037 c1 v1
          ++ [ECall (create_surface_entity "Surface Entity 2"
                       (mkVector3 520.0 512.0 32.0) 10.0 10.0 1.0) (Returned s2)]
          ++ generated_tag_trace s2 1 3363197873 c2 v2)%list, post, sp, c3, v3.
  unfold toy_run. rewrite Htr, <- !app_assoc. reflexivity.
Defined.
